(** * junk_drawer.decorators.async_tools: the blocking-call adapter

    A shallow embedding of the three decorators [await_me],
    [staticmethod_await_me] and [classmethod_await_me], together with the
    small piece of the Python object model and of the asyncio runtime that
    they rely on, followed by the properties of the adapter.

    Scope of the model.  A call is run to completion as one sequential
    computation over a [world]: the heap that user code reads and writes,
    and a trace of what the runtime was asked to do.  Calls in flight
    together are run by a schedule that interleaves their steps; the body
    of a user callable is one step. *)

From stdpp Require Import base strings gmap list.

Open Scope string_scope.

(** ** Python values, exceptions, outcomes *)

Inductive value : Type :=
| VNone
| VBool (b : bool)
| VInt (n : Z)
| VStr (s : string)
| VType (name : string)
| VAwaitable (yields : value).

#[global] Instance value_eq_dec : EqDecision value.
Proof. solve_decision. Defined.

Record exn : Type := Exn { exn_type : string; exn_msg : string }.

#[global] Instance exn_eq_dec : EqDecision exn.
Proof. solve_decision. Defined.

Inductive result (A : Type) : Type :=
| Returned (a : A)
| Raised (e : exn).
Arguments Returned {A} a.
Arguments Raised {A} e.

(** ** The world a call runs in *)

Inductive place : Type := EventLoop | WorkerThread.

(** [Submitted] records a request to the thread-offload primitive;
    [Invoked] records that the body of a user callable was entered, where,
    and with which positional and keyword arguments. *)
Inductive event : Type :=
| Submitted (fname : string) (args : list value) (kwargs : gmap string value)
| Invoked (p : place) (fname : string) (args : list value)
          (kwargs : gmap string value).

Record world : Type := World {
  heap : gmap string value;
  trace : list event
}.

(** ** The computation monad: state and exceptions *)

Definition M (A : Type) : Type := world → result A * world.

#[global] Instance M_ret : MRet M := λ A a w, (Returned a, w).

#[global] Instance M_bind : MBind M := λ A B k m w,
  match m w with
  | (Returned a, w') => k a w'
  | (Raised e, w') => (Raised e, w')
  end.

Definition raise {A : Type} (e : exn) : M A := λ w, (Raised e, w).

Definition log (ev : event) : M unit :=
  λ w, (Returned tt, World (heap w) (trace w ++ [ev])).

(** Runs user code, which sees the heap only. *)
Definition on_heap
    (body : gmap string value → result value * gmap string value) : M value :=
  λ w, let '(r, h) := body (heap w) in (r, World h (trace w)).

(** ** Callables *)

(** The callable handed to a decorator.  [fn_is_coroutine] says whether it
    was declared with [async def]; [fn_body] is what runs once its
    parameters are bound: at call time for a synchronous callable, at
    await time for a coroutine function. *)
Record callable : Type := Callable {
  fn_module : string;
  fn_name : string;
  fn_qualname : string;
  fn_doc : option string;
  fn_dict : gmap string value;
  fn_is_coroutine : bool;
  fn_body : list value → gmap string value →
            gmap string value → result value * gmap string value
}.

(** A function object made by an [async def] statement.  Calling it yields
    an awaitable; [af_call] is that awaitable as a computation.  An error
    in binding the arguments, which Python raises at the call and not at
    the await, is the first step of the computation here: the two cannot
    be told apart by [await g(...)]. *)
Record async_function : Type := AsyncFunction {
  af_module : string;
  af_name : string;
  af_qualname : string;
  af_doc : option string;
  af_dict : gmap string value;
  af_wrapped : option callable;
  af_call : list value → gmap string value → M value
}.

Definition this_module : string := "junk_drawer.decorators.async_tools".

(** [async def wrapper(...)] nested in the function [outer]: the fresh
    function object, before [wraps] is applied to it. *)
Definition async_def (outer : string)
    (call : list value → gmap string value → M value) : async_function :=
  {| af_module := this_module;
     af_name := "wrapper";
     af_qualname := outer ++ ".<locals>.wrapper";
     af_doc := None;
     af_dict := ∅;
     af_wrapped := None;
     af_call := call |}.

(** Model of [functools.wraps] (Python standard library): the attributes
    [__module__], [__name__], [__qualname__] and [__doc__] of the wrapped
    callable overwrite the wrapper's, the wrapper's [__dict__] is updated
    with the wrapped callable's, and [__wrapped__] is set. *)
Definition wraps (wrapped : callable) (wrapper : async_function)
    : async_function :=
  {| af_module := fn_module wrapped;
     af_name := fn_name wrapped;
     af_qualname := fn_qualname wrapped;
     af_doc := fn_doc wrapped;
     af_dict := fn_dict wrapped ∪ af_dict wrapper;
     af_wrapped := Some wrapped;
     af_call := af_call wrapper |}.

(** ** The host runtime *)

(** Model of [asyncio.iscoroutinefunction]: reads the flag of the
    callable. *)
Definition iscoroutinefunction (f : callable) : bool := fn_is_coroutine f.

(** [await x]: suspend until [x] completes and take its result or its
    exception. *)
Definition await (x : M value) : M value := x.

(** [f( *args, **kwargs)] for a coroutine function [f]: the coroutine
    object.  Its body runs where it is awaited, on the event loop. *)
Definition call_coroutine (f : callable) (args : list value)
    (kwargs : gmap string value) : M value :=
  _ ← log (Invoked EventLoop (fn_name f) args kwargs);
  on_heap (fn_body f args kwargs).

(** Modelled from the spec: the thread-offload primitive of the host
    runtime, [asyncio.to_thread(f, *args, **kwargs)], which is not part of
    the repository.  The call is submitted, [f] runs on a worker thread
    with exactly these arguments, and the awaitable gives back the value
    [f] returned or the exception it raised. *)
Definition to_thread (f : callable) (args : list value)
    (kwargs : gmap string value) : M value :=
  _ ← log (Submitted (fn_name f) args kwargs);
  _ ← log (Invoked WorkerThread (fn_name f) args kwargs);
  on_heap (fn_body f args kwargs).

(** ** Objects stored in a class body, and attribute access *)

Inductive pyobject : Type :=
| PyFunction (f : async_function)
| PyStaticMethod (f : async_function)
| PyClassMethod (f : async_function).

Definition staticmethod (f : async_function) : pyobject := PyStaticMethod f.
Definition classmethod (f : async_function) : pyobject := PyClassMethod f.

(** The function object behind an object: the object itself for a
    function, [__func__] for a descriptor. *)
Definition wrapper_of (o : pyobject) : async_function :=
  match o with
  | PyFunction f | PyStaticMethod f | PyClassMethod f => f
  end.

Definition is_function (o : pyobject) : bool :=
  match o with PyFunction _ => true | _ => false end.

Definition is_staticmethod (o : pyobject) : bool :=
  match o with PyStaticMethod _ => true | _ => false end.

Definition is_classmethod (o : pyobject) : bool :=
  match o with PyClassMethod _ => true | _ => false end.

(** A bound method: the receiver is put in front of the positional
    arguments; name and documentation are those of the function. *)
Definition bound_method (receiver : value) (f : async_function)
    : async_function :=
  {| af_module := af_module f;
     af_name := af_name f;
     af_qualname := af_qualname f;
     af_doc := af_doc f;
     af_dict := af_dict f;
     af_wrapped := af_wrapped f;
     af_call := λ args kwargs, af_call f (receiver :: args) kwargs |}.

(** [cls.name], where the class body holds [o] under [name]. *)
Definition class_getattr (cls : value) (o : pyobject) : async_function :=
  match o with
  | PyFunction f => f
  | PyStaticMethod f => f
  | PyClassMethod f => bound_method cls f
  end.

(** [obj.name], for an instance [obj] of [cls]. *)
Definition instance_getattr (obj cls : value) (o : pyobject)
    : async_function :=
  match o with
  | PyFunction f => bound_method obj f
  | PyStaticMethod f => f
  | PyClassMethod f => bound_method cls f
  end.

(** Binding of the parameter list [(cls, *args, **kwargs)]: the leading
    parameter takes the first positional argument, or the keyword [cls]
    when there is no positional argument at all. *)
Definition bind_cls (pos : list value) (kw : gmap string value)
    : M (value * list value * gmap string value) :=
  match pos with
  | c :: rest =>
      match kw !! "cls" with
      | None => mret (c, rest, kw)
      | Some _ =>
          raise (Exn "TypeError"
                     "wrapper() got multiple values for argument 'cls'")
      end
  | [] =>
      match kw !! "cls" with
      | Some c => mret (c, [], delete "cls" kw)
      | None =>
          raise (Exn "TypeError"
                     "wrapper() missing 1 required positional argument: 'cls'")
      end
  end.

(** ** The decorators *)

Definition await_me_wrapper (blocker_func : callable) : async_function :=
  wraps blocker_func
    (async_def "await_me" (λ args kwargs,
       if iscoroutinefunction blocker_func
       then await (call_coroutine blocker_func args kwargs)
       else await (to_thread blocker_func args kwargs))).

Definition await_me (blocker_func : callable) : pyobject :=
  PyFunction (await_me_wrapper blocker_func).

Definition staticmethod_await_me_wrapper (blocker_func : callable)
    : async_function :=
  wraps blocker_func
    (async_def "staticmethod_await_me" (λ args kwargs,
       if iscoroutinefunction blocker_func
       then await (call_coroutine blocker_func args kwargs)
       else await (to_thread blocker_func args kwargs))).

Definition staticmethod_await_me (blocker_func : callable) : pyobject :=
  staticmethod (staticmethod_await_me_wrapper blocker_func).

(** The body of the class variant's wrapper, its parameters bound.  In the
    first branch [cls] is not passed on. *)
Definition classmethod_await_me_body (blocker_func : callable)
    (cls : value) (args : list value) (kwargs : gmap string value)
    : M value :=
  if iscoroutinefunction blocker_func
  then await (call_coroutine blocker_func args kwargs)
  else await (to_thread blocker_func (cls :: args) kwargs).

Definition classmethod_await_me_wrapper (blocker_func : callable)
    : async_function :=
  wraps blocker_func
    (async_def "classmethod_await_me" (λ pos kw,
       '(cls, args, kwargs) ← bind_cls pos kw;
       classmethod_await_me_body blocker_func cls args kwargs)).

Definition classmethod_await_me (blocker_func : callable) : pyobject :=
  classmethod (classmethod_await_me_wrapper blocker_func).

(** ** What the trace shows *)

Definition is_invocation (ev : event) : bool :=
  match ev with Invoked _ _ _ _ => true | Submitted _ _ _ => false end.

Definition is_submission (ev : event) : bool :=
  match ev with Submitted _ _ _ => true | Invoked _ _ _ _ => false end.

(** Number of times the body of a user callable was entered. *)
Definition invocations (t : list event) : nat :=
  length (filter (λ ev, is_invocation ev = true) t).

(** Number of requests made to the thread-offload primitive. *)
Definition submissions (t : list event) : nat :=
  length (filter (λ ev, is_submission ev = true) t).

(** The events one offloaded call adds to the trace. *)
Definition offload_events (f : callable) (args : list value)
    (kwargs : gmap string value) : list event :=
  [Submitted (fn_name f) args kwargs;
   Invoked WorkerThread (fn_name f) args kwargs].

(** The events one directly delegated call adds to the trace. *)
Definition direct_events (f : callable) (args : list value)
    (kwargs : gmap string value) : list event :=
  [Invoked EventLoop (fn_name f) args kwargs].

(** The events one call of an adapted callable adds, by the branch taken. *)
Definition events_of (f : callable) (args : list value)
    (kwargs : gmap string value) : list event :=
  if iscoroutinefunction f
  then direct_events f args kwargs
  else offload_events f args kwargs.

(** The arguments the original callable is given by the class variant. *)
Definition class_variant_args (f : callable) (cls : value)
    (args : list value) : list value :=
  if iscoroutinefunction f then args else cls :: args.

(** The objects the three decorators make from one callable. *)
Definition adapted_objects (f : callable) : list pyobject :=
  [await_me f; staticmethod_await_me f; classmethod_await_me f].

(** ** Sample callables *)

Definition plain_def (name : string) (doc : option string) (is_async : bool)
    (body : list value → gmap string value →
            gmap string value → result value * gmap string value)
    : callable :=
  {| fn_module := "__main__";
     fn_name := name;
     fn_qualname := name;
     fn_doc := doc;
     fn_dict := ∅;
     fn_is_coroutine := is_async;
     fn_body := body |}.

(** [def increment(n): return n + 1] *)
Definition increment : callable :=
  plain_def "increment" (Some "Add one.") false (λ args kwargs h,
    match args with
    | [VInt n] => (Returned (VInt (n + 1)), h)
    | _ => (Raised (Exn "TypeError" "increment() takes an int"), h)
    end).

(** [def reject(n): raise ValueError("bad input")] *)
Definition reject : callable :=
  plain_def "reject" None false (λ args kwargs h,
    (Raised (Exn "ValueError" "bad input"), h)).

(** [def tick(): global counter; counter += 1; return counter] *)
Definition tick : callable :=
  plain_def "tick" None false (λ args kwargs h,
    match h !! "counter" with
    | Some (VInt n) => (Returned (VInt (n + 1)), <["counter" := VInt (n + 1)]> h)
    | _ => (Raised (Exn "NameError" "name 'counter' is not defined"), h)
    end).

(** The body of [def get_level(cls): return cls.level]. *)
Definition get_level_body (args : list value) (kwargs : gmap string value)
    (h : gmap string value) : result value * gmap string value :=
  match args with
  | [VType c] =>
      match h !! (c ++ ".level") with
      | Some v => (Returned v, h)
      | None => (Raised (Exn "AttributeError" "level"), h)
      end
  | [] =>
      (Raised (Exn "TypeError"
          "get_level() missing 1 required positional argument: 'cls'"), h)
  | _ => (Raised (Exn "TypeError" "get_level() takes a class"), h)
  end.

Definition get_level : callable :=
  plain_def "get_level" (Some "The level of the class.") false get_level_body.

(** The same method declared with [async def]. *)
Definition async_get_level : callable :=
  plain_def "get_level" (Some "The level of the class.") true get_level_body.

(** [async def answer(): return 42] *)
Definition answer : callable :=
  plain_def "answer" None true (λ args kwargs h,
    match args with
    | [] =>
        if bool_decide (kwargs = ∅)
        then (Returned (VInt 42), h)
        else (Raised (Exn "TypeError"
                "answer() got an unexpected keyword argument"), h)
    | _ =>
        (Raised (Exn "TypeError"
           "answer() takes 0 positional arguments"), h)
    end).

(** A world in which the class [Config] has [level = 3]. *)
Definition config_world : world :=
  World {[ "Config.level" := VInt 3 ]} [].

Definition counter_world (n : Z) (t : list event) : world :=
  World {[ "counter" := VInt n ]} t.

(** A history of earlier invocations. *)
Definition earlier_calls : list event :=
  [Submitted "reject" [VInt 7] ∅; Invoked WorkerThread "reject" [VInt 7] ∅;
   Invoked EventLoop "answer" [] ∅].

(** ** Where the original ran *)

Definition on_event_loop (ev : event) : bool :=
  match ev with Invoked EventLoop _ _ _ => true | _ => false end.

Definition on_worker_thread (ev : event) : bool :=
  match ev with Invoked WorkerThread _ _ _ => true | _ => false end.

(** Number of times user code was entered on the event loop's thread. *)
Definition event_loop_invocations (t : list event) : nat :=
  length (filter (λ ev, on_event_loop ev = true) t).

(** Number of times user code was entered on a worker thread. *)
Definition worker_invocations (t : list event) : nat :=
  length (filter (λ ev, on_worker_thread ev = true) t).

(** [await first; await second]: two awaits one after the other, as in the
    "sequential execution" note of the module's documentation. *)
Definition await_in_sequence (first second : M value) : M value :=
  _ ← await first; await second.

(** ** Further sample callables *)

(** [def whoami(self): return self] *)
Definition whoami : callable :=
  plain_def "whoami" None false (λ args kwargs h,
    match args with
    | [self] => (Returned self, h)
    | _ => (Raised (Exn "TypeError" "whoami() takes 1 positional argument"), h)
    end).

(** [async def refuse(): raise ValueError("bad input")] *)
Definition refuse : callable :=
  plain_def "refuse" None true (λ args kwargs h,
    (Raised (Exn "ValueError" "bad input"), h)).

(** [def fetch(): ...] followed by [fetch.retries = 3]. *)
Definition fetch : callable :=
  {| fn_module := "__main__";
     fn_name := "fetch";
     fn_qualname := "Client.fetch";
     fn_doc := Some "Fetch it.";
     fn_dict := {[ "retries" := VInt 3 ]};
     fn_is_coroutine := false;
     fn_body := λ args kwargs h, (Returned VNone, h) |}.

(** ** Awaitable objects and direct calls *)

(** [def make_answer(): return answer()]: a synchronous callable whose
    call yields an awaitable, one that gives 42 when awaited. *)
Definition make_answer : callable :=
  plain_def "make_answer" None false (λ args kwargs h,
    match args with
    | [] =>
        if bool_decide (kwargs = ∅)
        then (Returned (VAwaitable (VInt 42)), h)
        else (Raised (Exn "TypeError"
                "make_answer() got an unexpected keyword argument"), h)
    | _ =>
        (Raised (Exn "TypeError"
           "make_answer() takes 0 positional arguments"), h)
    end).

(** Whether calling [f] yields an awaitable rather than a plain value. *)
Definition awaitable_native (f : callable) (args : list value)
    (kwargs h : gmap string value) : bool :=
  fn_is_coroutine f ||
  match (fn_body f args kwargs h).1 with
  | Returned (VAwaitable _) => true
  | _ => false
  end.

(** [await f( *args, **kwargs)] written without the adapter. *)
Definition await_call (f : callable) (args : list value)
    (kwargs : gmap string value) : M value :=
  if fn_is_coroutine f
  then on_heap (fn_body f args kwargs)
  else
    x ← on_heap (fn_body f args kwargs);
    match x with
    | VAwaitable v => mret v
    | _ => raise (Exn "TypeError"
                      "object can't be used in 'await' expression")
    end.

(** Calling an object itself, not an attribute of a class (Python 3.10
    and later): a function runs, a [staticmethod] object passes the call
    on to the function it holds, a [classmethod] object cannot be
    called. *)
Definition call_object (o : pyobject) (args : list value)
    (kwargs : gmap string value) : M value :=
  match o with
  | PyFunction f => af_call f args kwargs
  | PyStaticMethod f => af_call f args kwargs
  | PyClassMethod _ =>
      raise (Exn "TypeError" "'classmethod' object is not callable")
  end.

(** ** Calls in flight together *)

(** Modelled from the spec: the event loop and the worker threads of the
    host runtime (section 5), which are not part of the repository.
    Several calls of callables adapted by [await_me] are in flight.  One
    step of a call either starts it, which runs the wrapper on the event
    loop up to its suspension (a coroutine function is awaited there, a
    synchronous callable is submitted), or lets the worker thread run the
    submitted callable.  A schedule names the call that takes the next
    step, so the calls interleave in any order. *)
Record call : Type := Call {
  c_fn : callable;
  c_args : list value;
  c_kwargs : gmap string value
}.

Inductive status : Type :=
| NotStarted
| InFlight
| Finished (r : result value).

Record pool : Type := Pool {
  p_world : world;
  p_status : list status
}.

Definition start_call (c : call) (w : world) : status * world :=
  if iscoroutinefunction (c_fn c)
  then
    let '(r, w') := await (call_coroutine (c_fn c) (c_args c) (c_kwargs c)) w
    in (Finished r, w')
  else
    (InFlight,
     (log (Submitted (fn_name (c_fn c)) (c_args c) (c_kwargs c)) w).2).

Definition finish_call (c : call) (w : world) : status * world :=
  let '(r, w') :=
    (_ ← log (Invoked WorkerThread (fn_name (c_fn c)) (c_args c) (c_kwargs c));
     on_heap (fn_body (c_fn c) (c_args c) (c_kwargs c))) w
  in (Finished r, w').

Definition step (calls : list call) (i : nat) (p : pool) : option pool :=
  match calls !! i, p_status p !! i with
  | Some c, Some NotStarted =>
      let '(s, w') := start_call c (p_world p) in
      Some (Pool w' (<[i := s]> (p_status p)))
  | Some c, Some InFlight =>
      let '(s, w') := finish_call c (p_world p) in
      Some (Pool w' (<[i := s]> (p_status p)))
  | _, _ => None
  end.

Fixpoint run_schedule (calls : list call) (sched : list nat) (p : pool)
    : option pool :=
  match sched with
  | [] => Some p
  | i :: rest =>
      match step calls i p with
      | Some p' => run_schedule calls rest p'
      | None => None
      end
  end.

Definition initial_pool (calls : list call) (w : world) : pool :=
  Pool w (replicate (length calls) NotStarted).



(** The schedule that runs one call with nothing in between. *)
Definition alone (c : call) : list nat :=
  if iscoroutinefunction (c_fn c) then [0] else [0; 0].

(** ** How the primitives run *)

Lemma to_thread_run f args kwargs w :
  to_thread f args kwargs w =
  ((fn_body f args kwargs (heap w)).1,
   World (fn_body f args kwargs (heap w)).2
         (trace w ++ offload_events f args kwargs)).
Proof.
  unfold to_thread, mbind, M_bind, log, on_heap, offload_events; simpl.
  destruct (fn_body f args kwargs (heap w)) as [r h]; simpl.
  by rewrite <- app_assoc.
Qed.

Lemma call_coroutine_run f args kwargs w :
  call_coroutine f args kwargs w =
  ((fn_body f args kwargs (heap w)).1,
   World (fn_body f args kwargs (heap w)).2
         (trace w ++ direct_events f args kwargs)).
Proof.
  unfold call_coroutine, mbind, M_bind, log, on_heap, direct_events; simpl.
  by destruct (fn_body f args kwargs (heap w)) as [r h].
Qed.

Lemma await_me_run f args kwargs w :
  af_call (wrapper_of (await_me f)) args kwargs w =
  ((fn_body f args kwargs (heap w)).1,
   World (fn_body f args kwargs (heap w)).2
         (trace w ++ events_of f args kwargs)).
Proof.
  unfold events_of; simpl; unfold await.
  destruct (iscoroutinefunction f);
    [apply call_coroutine_run | apply to_thread_run].
Qed.

Lemma staticmethod_await_me_run f args kwargs w :
  af_call (wrapper_of (staticmethod_await_me f)) args kwargs w =
  ((fn_body f args kwargs (heap w)).1,
   World (fn_body f args kwargs (heap w)).2
         (trace w ++ events_of f args kwargs)).
Proof.
  unfold events_of; simpl; unfold await.
  destruct (iscoroutinefunction f);
    [apply call_coroutine_run | apply to_thread_run].
Qed.

Lemma classmethod_await_me_body_run f cls args kwargs w :
  classmethod_await_me_body f cls args kwargs w =
  ((fn_body f (class_variant_args f cls args) kwargs (heap w)).1,
   World (fn_body f (class_variant_args f cls args) kwargs (heap w)).2
         (trace w ++ events_of f (class_variant_args f cls args) kwargs)).
Proof.
  unfold classmethod_await_me_body, class_variant_args, events_of, await.
  destruct (iscoroutinefunction f);
    [apply call_coroutine_run | apply to_thread_run].
Qed.

Lemma bind_cls_positional c rest kw w :
  kw !! "cls" = None → bind_cls (c :: rest) kw w = (Returned (c, rest, kw), w).
Proof. intros Hkw. unfold bind_cls. by rewrite Hkw. Qed.

(** Access through the class binds the class to [cls]. *)
Lemma class_access_run f cls args kwargs w :
  kwargs !! "cls" = None →
  af_call (class_getattr cls (classmethod_await_me f)) args kwargs w =
  classmethod_await_me_body f cls args kwargs w.
Proof.
  intros Hkw.
  change (af_call (class_getattr cls (classmethod_await_me f)) args kwargs w)
    with (('(c, a, k) ← bind_cls (cls :: args) kwargs;
           classmethod_await_me_body f c a k) w).
  unfold mbind, M_bind. by rewrite bind_cls_positional.
Qed.

Lemma invocations_app t1 t2 :
  invocations (t1 ++ t2) = invocations t1 + invocations t2.
Proof. unfold invocations. by rewrite filter_app, length_app. Qed.

Lemma submissions_app t1 t2 :
  submissions (t1 ++ t2) = submissions t1 + submissions t2.
Proof. unfold submissions. by rewrite filter_app, length_app. Qed.

Lemma invocations_events_of f args kwargs :
  invocations (events_of f args kwargs) = 1.
Proof. unfold events_of. by destruct (iscoroutinefunction f). Qed.

(** ** Properties of the adapter *)

(** C1.  For a synchronous callable [f] and any positional and keyword
    arguments: if calling [f] directly with them returns [v], then awaiting
    the call of the plain-variant adapted callable with the same arguments
    yields exactly [v].  The heap is left as the direct call leaves it, and
    the call went through one submission to a worker thread. *)
Theorem await_me_yields_direct_result f args kwargs w v h :
  iscoroutinefunction f = false →
  fn_body f args kwargs (heap w) = (Returned v, h) →
  af_call (wrapper_of (await_me f)) args kwargs w =
  (Returned v, World h (trace w ++ offload_events f args kwargs)).
Proof.
  intros Hsync Hdirect.
  rewrite await_me_run, Hdirect. unfold events_of. by rewrite Hsync.
Qed.

Lemma await_me_yields_direct_result_witness :
  iscoroutinefunction increment = false ∧
  fn_body increment [VInt 41] ∅ (heap (World ∅ [])) = (Returned (VInt 42), ∅) ∧
  af_call (wrapper_of (await_me increment)) [VInt 41] ∅ (World ∅ []) =
  (Returned (VInt 42),
   World ∅ (trace (World ∅ []) ++ offload_events increment [VInt 41] ∅)).
Proof.
  split; [reflexivity |]. split; [reflexivity |].
  apply (await_me_yields_direct_result increment [VInt 41] ∅ (World ∅ [])
           (VInt 42) ∅); reflexivity.
Defined.

(** C2.  If the callable [f] raises the exception [e] on some arguments,
    awaiting the adapted callable on those arguments raises [e] itself,
    with the same type and message, in the direct branch and in the
    worker-thread branch alike. *)
Theorem await_me_reraises_unchanged f args kwargs w e h :
  fn_body f args kwargs (heap w) = (Raised e, h) →
  af_call (wrapper_of (await_me f)) args kwargs w =
  (Raised e, World h (trace w ++ events_of f args kwargs)).
Proof. intros Hraise. by rewrite await_me_run, Hraise. Qed.

Lemma await_me_reraises_unchanged_witness :
  fn_body reject [VInt 7] ∅ (heap (World ∅ [])) =
    (Raised (Exn "ValueError" "bad input"), ∅) ∧
  af_call (wrapper_of (await_me reject)) [VInt 7] ∅ (World ∅ []) =
  (Raised (Exn "ValueError" "bad input"),
   World ∅ (trace (World ∅ []) ++ events_of reject [VInt 7] ∅)).
Proof.
  split; [reflexivity |].
  apply (await_me_reraises_unchanged reject [VInt 7] ∅ (World ∅ [])
           (Exn "ValueError" "bad input") ∅); reflexivity.
Defined.

(** C3.  For a synchronous callable adapted by the class variant and
    called through the class [cls], the call is offloaded with [cls] put
    back in front: the original callable runs on the worker thread with
    [cls] followed by the caller's positional arguments, and with the
    caller's keyword arguments, and its outcome is the outcome of the
    call. *)
Theorem classmethod_await_me_reinserts_cls f cls args kwargs w :
  iscoroutinefunction f = false →
  kwargs !! "cls" = None →
  af_call (class_getattr cls (classmethod_await_me f)) args kwargs w =
  ((fn_body f (cls :: args) kwargs (heap w)).1,
   World (fn_body f (cls :: args) kwargs (heap w)).2
         (trace w ++ offload_events f (cls :: args) kwargs)).
Proof.
  intros Hsync Hkw.
  rewrite class_access_run, classmethod_await_me_body_run by done.
  unfold class_variant_args, events_of. by rewrite Hsync.
Qed.

Lemma classmethod_await_me_reinserts_cls_witness :
  iscoroutinefunction get_level = false ∧
  (∅ : gmap string value) !! "cls" = None ∧
  af_call (class_getattr (VType "Config") (classmethod_await_me get_level))
          [] ∅ config_world =
  ((fn_body get_level [VType "Config"] ∅ (heap config_world)).1,
   World (fn_body get_level [VType "Config"] ∅ (heap config_world)).2
         (trace config_world ++ offload_events get_level [VType "Config"] ∅)).
Proof.
  split; [reflexivity |]. split; [reflexivity |].
  apply (classmethod_await_me_reinserts_cls get_level (VType "Config") [] ∅
           config_world); reflexivity.
Defined.

(** The class-variant scenario: the adapted method, called through the
    class, returns the class-level attribute. *)
Example config_get_level :
  (af_call (class_getattr (VType "Config") (classmethod_await_me get_level))
           [] ∅ config_world).1 = Returned (VInt 3).
Proof. reflexivity. Qed.

(** In the direct branch of the class variant the original callable is
    given the caller's arguments without the class. *)
Lemma classmethod_await_me_direct_branch f cls args kwargs w :
  iscoroutinefunction f = true →
  kwargs !! "cls" = None →
  af_call (class_getattr cls (classmethod_await_me f)) args kwargs w =
  ((fn_body f args kwargs (heap w)).1,
   World (fn_body f args kwargs (heap w)).2
         (trace w ++ direct_events f args kwargs)).
Proof.
  intros Hasync Hkw.
  rewrite class_access_run, classmethod_await_me_body_run by done.
  unfold class_variant_args, events_of. by rewrite Hasync.
Qed.

(** C4.  The class method [get_level], declared with [async def], adapted
    by the class variant and called through the class [Config]: the
    original is entered with no positional argument, where the offloaded
    branch gives it the class, and the call fails with the original's
    complaint about the missing [cls] instead of returning the level. *)
Theorem classmethod_await_me_direct_branch_omits_cls :
  af_call (class_getattr (VType "Config")
             (classmethod_await_me async_get_level)) [] ∅ config_world =
  (Raised (Exn "TypeError"
      "get_level() missing 1 required positional argument: 'cls'"),
   World (heap config_world) [Invoked EventLoop "get_level" [] ∅])
  ∧
  af_call (class_getattr (VType "Config")
             (classmethod_await_me get_level)) [] ∅ config_world =
  (Returned (VInt 3),
   World (heap config_world)
     [Submitted "get_level" [VType "Config"] ∅;
      Invoked WorkerThread "get_level" [VType "Config"] ∅]).
Proof. split; reflexivity. Qed.

(** C5.  For every callable and all arguments, the wrapper made by the
    static variant runs exactly as the wrapper made by the plain variant:
    same result or exception, same effect.  The one difference is that the
    static variant's result is a static member: reached through the class
    or through an instance, it is called with the caller's arguments only,
    no receiver being put in front. *)
Theorem staticmethod_await_me_same_as_await_me f args kwargs w :
  af_call (wrapper_of (staticmethod_await_me f)) args kwargs w =
    af_call (wrapper_of (await_me f)) args kwargs w
  ∧ is_staticmethod (staticmethod_await_me f) = true
  ∧ is_staticmethod (await_me f) = false
  ∧ (∀ cls, af_call (class_getattr cls (staticmethod_await_me f))
                    args kwargs w =
            af_call (wrapper_of (await_me f)) args kwargs w)
  ∧ (∀ obj cls, af_call (instance_getattr obj cls (staticmethod_await_me f))
                        args kwargs w =
                af_call (wrapper_of (await_me f)) args kwargs w).
Proof.
  assert (af_call (wrapper_of (staticmethod_await_me f)) args kwargs w =
          af_call (wrapper_of (await_me f)) args kwargs w) as Heq
    by (by rewrite staticmethod_await_me_run, await_me_run).
  repeat split; try done; intros; exact Heq.
Qed.

(** The static-variant scenario: a receiver-free method returning a
    constant, reached through an instance and through the class. *)
Example static_answer :
  (af_call (instance_getattr (VStr "an instance") (VType "Config")
              (staticmethod_await_me increment)) [VInt 1] ∅ config_world).1
    = Returned (VInt 2)
  ∧ (af_call (class_getattr (VType "Config")
                (staticmethod_await_me increment)) [VInt 1] ∅ config_world).1
    = Returned (VInt 2).
Proof. split; reflexivity. Qed.

(** C6, as the code has it.  For a callable that is a coroutine function
    (what [asyncio.iscoroutinefunction] recognises): if its body, given
    the caller's arguments in the current state, returns [v], then
    awaiting the adapted callable on these arguments yields [v] by direct
    delegation: the original runs on the event loop with these arguments,
    and nothing is submitted to a worker thread. *)
Theorem await_me_coroutine_delegates_directly f v args kwargs w h :
  iscoroutinefunction f = true →
  fn_body f args kwargs (heap w) = (Returned v, h) →
  af_call (wrapper_of (await_me f)) args kwargs w =
    (Returned v,
     World h (trace w ++ [Invoked EventLoop (fn_name f) args kwargs]))
  ∧ submissions (trace (af_call (wrapper_of (await_me f)) args kwargs w).2) =
    submissions (trace w).
Proof.
  intros Hasync Hret.
  rewrite await_me_run, Hret. unfold events_of. rewrite Hasync.
  split; [done |]. cbn [snd trace]. rewrite submissions_app.
  change (submissions (direct_events f args kwargs)) with 0. lia.
Qed.

Lemma await_me_coroutine_delegates_directly_witness :
  iscoroutinefunction answer = true ∧
  fn_body answer [] ∅ (heap config_world) =
    (Returned (VInt 42), heap config_world) ∧
  (af_call (wrapper_of (await_me answer)) [] ∅ config_world =
    (Returned (VInt 42),
     World (heap config_world)
           (trace config_world ++ [Invoked EventLoop (fn_name answer) [] ∅]))
   ∧ submissions
       (trace (af_call (wrapper_of (await_me answer)) [] ∅ config_world).2) =
     submissions (trace config_world)).
Proof.
  split; [reflexivity |]. split; [reflexivity |].
  apply (await_me_coroutine_delegates_directly answer (VInt 42) [] ∅
           config_world (heap config_world)); reflexivity.
Defined.

(** C6, as the claim has it, fails for a callable whose call yields an
    awaitable without its being a coroutine function.  [make_answer] is
    such a callable, and awaiting its call gives 42; the adapter submits
    it to a worker thread and hands back the awaitable itself, not 42. *)
Lemma awaitable_returning_callable_is_offloaded :
  awaitable_native make_answer [] ∅ ∅ = true
  ∧ (await_call make_answer [] ∅ (World ∅ [])).1 = Returned (VInt 42)
  ∧ (af_call (wrapper_of (await_me make_answer)) [] ∅ (World ∅ [])).1 =
    Returned (VAwaitable (VInt 42))
  ∧ (af_call (wrapper_of (await_me make_answer)) [] ∅ (World ∅ [])).1 ≠
    Returned (VInt 42)
  ∧ submissions
      (trace (af_call (wrapper_of (await_me make_answer)) [] ∅
                (World ∅ [])).2) = 1.
Proof. repeat split; try reflexivity. discriminate. Qed.

(** C7.  For every callable, the adapted callable made by each of the
    three decorators has the name and the documentation string of the
    original, also when it is reached through the class or through an
    instance. *)
Theorem decorators_preserve_name_and_doc f :
  Forall (λ o, af_name (wrapper_of o) = fn_name f
               ∧ af_doc (wrapper_of o) = fn_doc f) (adapted_objects f)
  ∧ (∀ cls,
       Forall (λ o, af_name (class_getattr cls o) = fn_name f
                    ∧ af_doc (class_getattr cls o) = fn_doc f)
              (adapted_objects f))
  ∧ (∀ obj cls,
       Forall (λ o, af_name (instance_getattr obj cls o) = fn_name f
                    ∧ af_doc (instance_getattr obj cls o) = fn_doc f)
              (adapted_objects f)).
Proof.
  repeat split; intros; unfold adapted_objects;
    repeat (apply Forall_cons; split; [done |]); apply Forall_nil_2.
Qed.

(** C8.  One call of an adapted callable enters the original callable
    exactly once, in either branch, and what the call gives back, value or
    exception, together with the state it leaves, is that of this single
    run of the original. *)
Theorem adapted_call_invokes_original_once f args kwargs w :
  (invocations (trace (af_call (wrapper_of (await_me f)) args kwargs w).2) =
     S (invocations (trace w))
   ∧ ((af_call (wrapper_of (await_me f)) args kwargs w).1,
      heap (af_call (wrapper_of (await_me f)) args kwargs w).2) =
     fn_body f args kwargs (heap w))
  ∧ (invocations
       (trace (af_call (wrapper_of (staticmethod_await_me f)) args kwargs w).2)
     = S (invocations (trace w))
     ∧ ((af_call (wrapper_of (staticmethod_await_me f)) args kwargs w).1,
        heap (af_call (wrapper_of (staticmethod_await_me f)) args kwargs w).2)
       = fn_body f args kwargs (heap w))
  ∧ (∀ cls,
       invocations (trace (classmethod_await_me_body f cls args kwargs w).2) =
         S (invocations (trace w))
       ∧ ((classmethod_await_me_body f cls args kwargs w).1,
          heap (classmethod_await_me_body f cls args kwargs w).2) =
         fn_body f (class_variant_args f cls args) kwargs (heap w)).
Proof.
  repeat split; intros;
    rewrite ?await_me_run, ?staticmethod_await_me_run,
            ?classmethod_await_me_body_run; simpl;
    rewrite ?invocations_app, ?invocations_events_of; try lia;
    by destruct (fn_body _ _ _ _).
Qed.

(** A callable with a side effect shows the single run: the counter goes
    up by one, not more. *)
Example tick_runs_once :
  af_call (wrapper_of (await_me tick)) [] ∅ (counter_world 5 []) =
  (Returned (VInt 6),
   World {[ "counter" := VInt 6 ]}
         [Submitted "tick" [] ∅; Invoked WorkerThread "tick" [] ∅]).
Proof. reflexivity. Qed.







(** One call scheduled with nothing in between is the wrapper of
    [await_me] run to completion. *)
Lemma call_alone_is_await_me c w :
  run_schedule [c] (alone c) (initial_pool [c] w) =
  Some (Pool (af_call (wrapper_of (await_me (c_fn c)))
                      (c_args c) (c_kwargs c) w).2
             [Finished (af_call (wrapper_of (await_me (c_fn c)))
                                (c_args c) (c_kwargs c) w).1]).
Proof.
  rewrite await_me_run. unfold alone, events_of.
  destruct (iscoroutinefunction (c_fn c)) eqn:Hflag;
    cbn [run_schedule step initial_pool length replicate lookup
         list_lookup p_status p_world];
    unfold start_call, await; rewrite Hflag.
  - by rewrite call_coroutine_run.
  - cbn [insert list_insert p_status p_world lookup list_lookup].
    unfold finish_call, mbind, M_bind, log, on_heap. cbn [heap trace snd].
    destruct (fn_body (c_fn c) (c_args c) (c_kwargs c) (heap w)) as [r h].
    cbn [fst snd insert list_insert]. unfold offload_events.
    by rewrite <- app_assoc.
Qed.



(** Under that interleaving the two other calls did run in between. *)
Example interleaved_run :
  run_schedule
    [Call increment [VInt 41] ∅; Call tick [] ∅; Call reject [VInt 7] ∅]
    [0; 1; 2; 2; 1; 0]
    (initial_pool
       [Call increment [VInt 41] ∅; Call tick [] ∅; Call reject [VInt 7] ∅]
       (counter_world 5 [])) =
  Some (Pool
    (World {[ "counter" := VInt 6 ]}
       [Submitted "increment" [VInt 41] ∅; Submitted "tick" [] ∅;
        Submitted "reject" [VInt 7] ∅;
        Invoked WorkerThread "reject" [VInt 7] ∅;
        Invoked WorkerThread "tick" [] ∅;
        Invoked WorkerThread "increment" [VInt 41] ∅])
    [Finished (Returned (VInt 42)); Finished (Returned (VInt 6));
     Finished (Raised (Exn "ValueError" "bad input"))]).
Proof. reflexivity. Qed.

(** C10, as the code has it.  For every callable, the plain variant
    returns a function, the static variant a [staticmethod] object and the
    class variant a [classmethod] object, neither of them a function.
    Called itself, the plain variant's result runs the wrapper, and so
    does the static variant's; the class variant's result cannot be called
    and fails with a [TypeError] before anything happens, so it is of use
    only as an attribute of a class. *)
Theorem decorators_return_kinds f args kwargs w :
  (is_function (await_me f) = true
   ∧ is_staticmethod (staticmethod_await_me f) = true
   ∧ is_function (staticmethod_await_me f) = false
   ∧ is_classmethod (classmethod_await_me f) = true
   ∧ is_function (classmethod_await_me f) = false)
  ∧ call_object (await_me f) args kwargs w =
    ((fn_body f args kwargs (heap w)).1,
     World (fn_body f args kwargs (heap w)).2
           (trace w ++ events_of f args kwargs))
  ∧ call_object (staticmethod_await_me f) args kwargs w =
    ((fn_body f args kwargs (heap w)).1,
     World (fn_body f args kwargs (heap w)).2
           (trace w ++ events_of f args kwargs))
  ∧ call_object (classmethod_await_me f) args kwargs w =
    (Raised (Exn "TypeError" "'classmethod' object is not callable"), w).
Proof.
  split; [repeat split |].
  split; [apply await_me_run |].
  split; [apply staticmethod_await_me_run | reflexivity].
Qed.

(** C10, as the claim has it, fails where it says that only the plain
    variant's result can be called: the [staticmethod] object made from
    [increment] is no function, and calling it on 1 gives 2. *)
Lemma staticmethod_object_is_callable :
  is_function (staticmethod_await_me increment) = false
  ∧ call_object (staticmethod_await_me increment) [VInt 1] ∅ (World ∅ []) =
    (Returned (VInt 2),
     World ∅ [Submitted "increment" [VInt 1] ∅;
              Invoked WorkerThread "increment" [VInt 1] ∅]).
Proof. split; reflexivity. Qed.

(** ** Further properties: receivers, argument binding, placement *)

Lemma event_loop_invocations_app t1 t2 :
  event_loop_invocations (t1 ++ t2) =
  event_loop_invocations t1 + event_loop_invocations t2.
Proof. unfold event_loop_invocations. by rewrite filter_app, length_app. Qed.

Lemma worker_invocations_app t1 t2 :
  worker_invocations (t1 ++ t2) = worker_invocations t1 + worker_invocations t2.
Proof. unfold worker_invocations. by rewrite filter_app, length_app. Qed.

Lemma class_call_unfold f pos kw w :
  af_call (wrapper_of (classmethod_await_me f)) pos kw w =
  match bind_cls pos kw w with
  | (Returned (c, a, k), w') => classmethod_await_me_body f c a k w'
  | (Raised e, w') => (Raised e, w')
  end.
Proof.
  change (af_call (wrapper_of (classmethod_await_me f)) pos kw w)
    with (('(c, a, k) ← bind_cls pos kw;
           classmethod_await_me_body f c a k) w).
  unfold mbind, M_bind.
  by destruct (bind_cls pos kw w) as [[[[c a] k] | e] w'].
Qed.

(** X1.  The plain variant on an instance method: reached through an
    instance [obj], the adapted method hands [obj] to the original as its
    first positional argument, followed by the caller's arguments; reached
    through the class, it hands over the caller's arguments alone. *)
Theorem await_me_instance_method_receives_self f obj cls args kwargs w :
  af_call (instance_getattr obj cls (await_me f)) args kwargs w =
    ((fn_body f (obj :: args) kwargs (heap w)).1,
     World (fn_body f (obj :: args) kwargs (heap w)).2
           (trace w ++ events_of f (obj :: args) kwargs))
  ∧ af_call (class_getattr cls (await_me f)) args kwargs w =
    ((fn_body f args kwargs (heap w)).1,
     World (fn_body f args kwargs (heap w)).2
           (trace w ++ events_of f args kwargs)).
Proof.
  split; [| apply await_me_run].
  change (af_call (instance_getattr obj cls (await_me f)) args kwargs w)
    with (af_call (wrapper_of (await_me f)) (obj :: args) kwargs w).
  apply await_me_run.
Qed.

(** X2.  The class variant reached through an instance: a synchronous
    original runs on the worker thread with the class, not the instance,
    in front of the caller's arguments. *)
Theorem classmethod_await_me_through_instance f obj cls args kwargs w :
  iscoroutinefunction f = false →
  kwargs !! "cls" = None →
  af_call (instance_getattr obj cls (classmethod_await_me f)) args kwargs w =
  ((fn_body f (cls :: args) kwargs (heap w)).1,
   World (fn_body f (cls :: args) kwargs (heap w)).2
         (trace w ++ offload_events f (cls :: args) kwargs)).
Proof.
  intros Hsync Hkw.
  change (af_call (instance_getattr obj cls (classmethod_await_me f))
            args kwargs w)
    with (af_call (class_getattr cls (classmethod_await_me f)) args kwargs w).
  rewrite class_access_run, classmethod_await_me_body_run by done.
  unfold class_variant_args, events_of. by rewrite Hsync.
Qed.

Lemma classmethod_await_me_through_instance_witness :
  iscoroutinefunction whoami = false ∧
  (∅ : gmap string value) !! "cls" = None ∧
  af_call (instance_getattr (VStr "an instance") (VType "Config")
             (classmethod_await_me whoami)) [] ∅ config_world =
  ((fn_body whoami [VType "Config"] ∅ (heap config_world)).1,
   World (fn_body whoami [VType "Config"] ∅ (heap config_world)).2
         (trace config_world ++ offload_events whoami [VType "Config"] ∅)).
Proof.
  split; [reflexivity |]. split; [reflexivity |].
  apply (classmethod_await_me_through_instance whoami (VStr "an instance")
           (VType "Config") [] ∅ config_world); reflexivity.
Defined.

(** X3.  The class variant's wrapper names its leading parameter [cls]:
    a call through the class that passes a keyword argument [cls] fails
    with a [TypeError] before anything happens: the original is not
    entered, nothing is submitted, the heap is untouched. *)
Theorem classmethod_await_me_rejects_cls_keyword f cls args kwargs w :
  is_Some (kwargs !! "cls") →
  ∃ e, exn_type e = "TypeError"
       ∧ af_call (class_getattr cls (classmethod_await_me f)) args kwargs w =
         (Raised e, w).
Proof.
  intros [v Hv].
  change (af_call (class_getattr cls (classmethod_await_me f)) args kwargs w)
    with (af_call (wrapper_of (classmethod_await_me f)) (cls :: args) kwargs w).
  rewrite class_call_unfold. unfold bind_cls. rewrite Hv.
  eexists. split; [| reflexivity]. reflexivity.
Qed.

Lemma classmethod_await_me_rejects_cls_keyword_witness :
  is_Some (({[ "cls" := VInt 5 ]} : gmap string value) !! "cls") ∧
  ∃ e, exn_type e = "TypeError"
       ∧ af_call (class_getattr (VType "Config") (classmethod_await_me get_level))
                 [] {[ "cls" := VInt 5 ]} config_world =
         (Raised e, config_world).
Proof.
  split; [by eexists |].
  apply (classmethod_await_me_rejects_cls_keyword get_level (VType "Config")
           [] {[ "cls" := VInt 5 ]} config_world).
  by eexists.
Defined.

(** X4.  The class variant's wrapper called with no positional argument
    and no keyword [cls] fails with a [TypeError] for the missing [cls],
    and the original is not entered. *)
Theorem classmethod_await_me_missing_cls f kwargs w :
  kwargs !! "cls" = None →
  ∃ e, exn_type e = "TypeError"
       ∧ af_call (wrapper_of (classmethod_await_me f)) [] kwargs w =
         (Raised e, w).
Proof.
  intros Hkw. rewrite class_call_unfold. unfold bind_cls. rewrite Hkw.
  eexists. split; [| reflexivity]. reflexivity.
Qed.

Lemma classmethod_await_me_missing_cls_witness :
  (∅ : gmap string value) !! "cls" = None ∧
  ∃ e, exn_type e = "TypeError"
       ∧ af_call (wrapper_of (classmethod_await_me get_level)) [] ∅
                 config_world =
         (Raised e, config_world).
Proof.
  split; [reflexivity |].
  apply (classmethod_await_me_missing_cls get_level ∅ config_world).
  reflexivity.
Defined.

(** X5.  The class variant's wrapper called with the class given by the
    keyword [cls] and no positional argument: the keyword is taken as the
    leading parameter, so a synchronous original runs with the class as
    its one positional argument and with the remaining keywords. *)
Theorem classmethod_await_me_cls_by_keyword f c kwargs w :
  iscoroutinefunction f = false →
  kwargs !! "cls" = Some c →
  af_call (wrapper_of (classmethod_await_me f)) [] kwargs w =
  ((fn_body f [c] (delete "cls" kwargs) (heap w)).1,
   World (fn_body f [c] (delete "cls" kwargs) (heap w)).2
         (trace w ++ offload_events f [c] (delete "cls" kwargs))).
Proof.
  intros Hsync Hkw. rewrite class_call_unfold. unfold bind_cls.
  rewrite Hkw. unfold mret, M_ret.
  rewrite classmethod_await_me_body_run.
  unfold class_variant_args, events_of. by rewrite Hsync.
Qed.

Lemma classmethod_await_me_cls_by_keyword_witness :
  iscoroutinefunction get_level = false ∧
  ({[ "cls" := VType "Config" ]} : gmap string value) !! "cls" =
    Some (VType "Config") ∧
  af_call (wrapper_of (classmethod_await_me get_level)) []
          {[ "cls" := VType "Config" ]} config_world =
  ((fn_body get_level [VType "Config"]
      (delete "cls" {[ "cls" := VType "Config" ]}) (heap config_world)).1,
   World (fn_body get_level [VType "Config"]
            (delete "cls" {[ "cls" := VType "Config" ]})
            (heap config_world)).2
         (trace config_world ++
          offload_events get_level [VType "Config"]
            (delete "cls" {[ "cls" := VType "Config" ]}))).
Proof.
  split; [reflexivity |]. split; [reflexivity |].
  apply (classmethod_await_me_cls_by_keyword get_level (VType "Config")
           {[ "cls" := VType "Config" ]} config_world); reflexivity.
Defined.

(** X6.  The static variant re-raises what the original raises: reached
    through the class or through an instance, awaiting the adapted method
    raises the original's exception itself, in either branch. *)
Theorem staticmethod_await_me_reraises_unchanged f obj cls args kwargs w e h :
  fn_body f args kwargs (heap w) = (Raised e, h) →
  af_call (class_getattr cls (staticmethod_await_me f)) args kwargs w =
    (Raised e, World h (trace w ++ events_of f args kwargs))
  ∧ af_call (instance_getattr obj cls (staticmethod_await_me f)) args kwargs w =
    (Raised e, World h (trace w ++ events_of f args kwargs)).
Proof.
  intros Hraise.
  change (af_call (class_getattr cls (staticmethod_await_me f)) args kwargs w)
    with (af_call (wrapper_of (staticmethod_await_me f)) args kwargs w).
  change (af_call (instance_getattr obj cls (staticmethod_await_me f))
            args kwargs w)
    with (af_call (wrapper_of (staticmethod_await_me f)) args kwargs w).
  by rewrite staticmethod_await_me_run, Hraise.
Qed.

Lemma staticmethod_await_me_reraises_unchanged_witness :
  fn_body refuse [] ∅ (heap config_world) =
    (Raised (Exn "ValueError" "bad input"), heap config_world) ∧
  (af_call (class_getattr (VType "Config") (staticmethod_await_me refuse))
           [] ∅ config_world =
     (Raised (Exn "ValueError" "bad input"),
      World (heap config_world)
            (trace config_world ++ events_of refuse [] ∅))
   ∧ af_call (instance_getattr (VStr "an instance") (VType "Config")
                (staticmethod_await_me refuse)) [] ∅ config_world =
     (Raised (Exn "ValueError" "bad input"),
      World (heap config_world)
            (trace config_world ++ events_of refuse [] ∅))).
Proof.
  split; [reflexivity |].
  apply (staticmethod_await_me_reraises_unchanged refuse (VStr "an instance")
           (VType "Config") [] ∅ config_world
           (Exn "ValueError" "bad input") (heap config_world)).
  reflexivity.
Defined.

(** X7.  The class variant re-raises what a synchronous original raises on
    the worker thread: if the original, given the class and the caller's
    arguments, raises [e], awaiting the call through the class raises [e]
    itself. *)
Theorem classmethod_await_me_reraises_unchanged f cls args kwargs w e h :
  iscoroutinefunction f = false →
  kwargs !! "cls" = None →
  fn_body f (cls :: args) kwargs (heap w) = (Raised e, h) →
  af_call (class_getattr cls (classmethod_await_me f)) args kwargs w =
  (Raised e, World h (trace w ++ offload_events f (cls :: args) kwargs)).
Proof.
  intros Hsync Hkw Hraise.
  rewrite class_access_run, classmethod_await_me_body_run by done.
  unfold class_variant_args, events_of. by rewrite Hsync, Hraise.
Qed.

Lemma classmethod_await_me_reraises_unchanged_witness :
  iscoroutinefunction get_level = false ∧
  (∅ : gmap string value) !! "cls" = None ∧
  fn_body get_level [VType "Other"] ∅ (heap config_world) =
    (Raised (Exn "AttributeError" "level"), heap config_world) ∧
  af_call (class_getattr (VType "Other") (classmethod_await_me get_level))
          [] ∅ config_world =
  (Raised (Exn "AttributeError" "level"),
   World (heap config_world)
         (trace config_world ++ offload_events get_level [VType "Other"] ∅)).
Proof.
  split; [reflexivity |]. split; [reflexivity |]. split; [reflexivity |].
  apply (classmethod_await_me_reraises_unchanged get_level (VType "Other")
           [] ∅ config_world (Exn "AttributeError" "level")
           (heap config_world)); reflexivity.
Defined.

Lemma offload_events_counts f args kwargs :
  event_loop_invocations (offload_events f args kwargs) = 0
  ∧ worker_invocations (offload_events f args kwargs) = 1
  ∧ submissions (offload_events f args kwargs) = 1.
Proof. repeat split; reflexivity. Qed.

Lemma direct_events_counts f args kwargs :
  event_loop_invocations (direct_events f args kwargs) = 1
  ∧ worker_invocations (direct_events f args kwargs) = 0
  ∧ submissions (direct_events f args kwargs) = 0.
Proof. repeat split; reflexivity. Qed.

(** X8.  A synchronous original never runs on the event loop's thread:
    with each of the three wrappers, one call makes exactly one submission
    to the worker-thread primitive and one entry of the original on a
    worker thread, and none on the event loop. *)
Theorem sync_callable_runs_on_worker_only f cls args kwargs w :
  iscoroutinefunction f = false →
  Forall (λ w', event_loop_invocations (trace w') =
                  event_loop_invocations (trace w)
                ∧ worker_invocations (trace w') = S (worker_invocations (trace w))
                ∧ submissions (trace w') = S (submissions (trace w)))
    [(af_call (wrapper_of (await_me f)) args kwargs w).2;
     (af_call (wrapper_of (staticmethod_await_me f)) args kwargs w).2;
     (classmethod_await_me_body f cls args kwargs w).2].
Proof.
  intros Hsync.
  rewrite await_me_run, staticmethod_await_me_run,
          classmethod_await_me_body_run.
  unfold events_of, class_variant_args. rewrite Hsync. cbn [snd trace].
  repeat (apply Forall_cons; split;
          [cbn [trace];
           rewrite event_loop_invocations_app, worker_invocations_app,
                   submissions_app;
           match goal with
           | |- context [offload_events ?g ?a ?k] =>
               destruct (offload_events_counts g a k) as (-> & -> & ->)
           end; lia |]).
  apply Forall_nil_2.
Qed.

Lemma sync_callable_runs_on_worker_only_witness :
  iscoroutinefunction tick = false ∧
  Forall (λ w', event_loop_invocations (trace w') =
                  event_loop_invocations (trace (counter_world 5 earlier_calls))
                ∧ worker_invocations (trace w') =
                  S (worker_invocations (trace (counter_world 5 earlier_calls)))
                ∧ submissions (trace w') =
                  S (submissions (trace (counter_world 5 earlier_calls))))
    [(af_call (wrapper_of (await_me tick)) [] ∅
        (counter_world 5 earlier_calls)).2;
     (af_call (wrapper_of (staticmethod_await_me tick)) [] ∅
        (counter_world 5 earlier_calls)).2;
     (classmethod_await_me_body tick (VType "Config") [] ∅
        (counter_world 5 earlier_calls)).2].
Proof.
  split; [reflexivity |].
  apply (sync_callable_runs_on_worker_only tick (VType "Config") [] ∅
           (counter_world 5 earlier_calls)).
  reflexivity.
Defined.

(** X9.  A coroutine function is never offloaded, whatever it does: with
    each of the three wrappers, one call makes no submission and no entry
    on a worker thread, and enters the original once on the event loop. *)
Theorem coroutine_function_is_never_offloaded f cls args kwargs w :
  iscoroutinefunction f = true →
  Forall (λ w', event_loop_invocations (trace w') =
                  S (event_loop_invocations (trace w))
                ∧ worker_invocations (trace w') = worker_invocations (trace w)
                ∧ submissions (trace w') = submissions (trace w))
    [(af_call (wrapper_of (await_me f)) args kwargs w).2;
     (af_call (wrapper_of (staticmethod_await_me f)) args kwargs w).2;
     (classmethod_await_me_body f cls args kwargs w).2].
Proof.
  intros Hasync.
  rewrite await_me_run, staticmethod_await_me_run,
          classmethod_await_me_body_run.
  unfold events_of, class_variant_args. rewrite Hasync. cbn [snd trace].
  repeat (apply Forall_cons; split;
          [cbn [trace];
           rewrite event_loop_invocations_app, worker_invocations_app,
                   submissions_app;
           match goal with
           | |- context [direct_events ?g ?a ?k] =>
               destruct (direct_events_counts g a k) as (-> & -> & ->)
           end; lia |]).
  apply Forall_nil_2.
Qed.

Lemma coroutine_function_is_never_offloaded_witness :
  iscoroutinefunction refuse = true ∧
  Forall (λ w', event_loop_invocations (trace w') =
                  S (event_loop_invocations (trace config_world))
                ∧ worker_invocations (trace w') =
                  worker_invocations (trace config_world)
                ∧ submissions (trace w') = submissions (trace config_world))
    [(af_call (wrapper_of (await_me refuse)) [] ∅ config_world).2;
     (af_call (wrapper_of (staticmethod_await_me refuse)) [] ∅ config_world).2;
     (classmethod_await_me_body refuse (VType "Config") [] ∅ config_world).2].
Proof.
  split; [reflexivity |].
  apply (coroutine_function_is_never_offloaded refuse (VType "Config") [] ∅
           config_world).
  reflexivity.
Defined.

Lemma classmethod_await_me_direct_branch_witness :
  iscoroutinefunction refuse = true ∧
  (∅ : gmap string value) !! "cls" = None ∧
  af_call (class_getattr (VType "Config") (classmethod_await_me refuse))
          [VInt 1] ∅ config_world =
  ((fn_body refuse [VInt 1] ∅ (heap config_world)).1,
   World (fn_body refuse [VInt 1] ∅ (heap config_world)).2
         (trace config_world ++ direct_events refuse [VInt 1] ∅)).
Proof.
  split; [reflexivity |]. split; [reflexivity |].
  apply (classmethod_await_me_direct_branch refuse (VType "Config") [VInt 1] ∅
           config_world); reflexivity.
Defined.

(** X11.  Beyond name and documentation, each of the three decorators
    gives the wrapper the module and the qualified name of the original,
    keeps the original itself as [__wrapped__], and makes every attribute
    stored on the original (other than [__wrapped__], which is set anew)
    readable on the wrapper with the same value. *)
Theorem adapted_keeps_identity_attributes f k v :
  k ≠ "__wrapped__" →
  fn_dict f !! k = Some v →
  Forall (λ o, af_module (wrapper_of o) = fn_module f
               ∧ af_qualname (wrapper_of o) = fn_qualname f
               ∧ af_wrapped (wrapper_of o) = Some f
               ∧ af_dict (wrapper_of o) !! k = Some v)
         (adapted_objects f).
Proof.
  intros _ Hk. unfold adapted_objects.
  repeat (apply Forall_cons; split;
          [repeat split; cbn [wrapper_of await_me staticmethod_await_me
                              classmethod_await_me staticmethod classmethod];
           cbn [af_dict await_me_wrapper staticmethod_await_me_wrapper
                classmethod_await_me_wrapper wraps];
           by apply lookup_union_Some_l |]).
  apply Forall_nil_2.
Qed.

Lemma adapted_keeps_identity_attributes_witness :
  "retries" ≠ "__wrapped__" ∧
  fn_dict fetch !! "retries" = Some (VInt 3) ∧
  Forall (λ o, af_module (wrapper_of o) = fn_module fetch
               ∧ af_qualname (wrapper_of o) = fn_qualname fetch
               ∧ af_wrapped (wrapper_of o) = Some fetch
               ∧ af_dict (wrapper_of o) !! "retries" = Some (VInt 3))
         (adapted_objects fetch).
Proof.
  split; [discriminate |]. split; [reflexivity |].
  apply (adapted_keeps_identity_attributes fetch "retries" (VInt 3));
    [discriminate | reflexivity].
Defined.

(** X12.  Two adapted calls awaited one after the other run one after the
    other: when the first returns, the second original starts on the heap
    the first one left, and the trace shows all of the first call before
    any of the second. *)
Theorem sequential_awaits_run_in_order f g a1 k1 a2 k2 w v h :
  fn_body f a1 k1 (heap w) = (Returned v, h) →
  await_in_sequence (af_call (wrapper_of (await_me f)) a1 k1)
                    (af_call (wrapper_of (await_me g)) a2 k2) w =
  ((fn_body g a2 k2 h).1,
   World (fn_body g a2 k2 h).2
         (trace w ++ events_of f a1 k1 ++ events_of g a2 k2)).
Proof.
  intros Hfirst.
  unfold await_in_sequence, await, mbind, M_bind.
  rewrite await_me_run, Hfirst. cbn [fst snd].
  rewrite await_me_run. cbn [heap trace]. by rewrite <- app_assoc.
Qed.

Lemma sequential_awaits_run_in_order_witness :
  fn_body tick [] ∅ (heap (counter_world 5 [])) =
    (Returned (VInt 6), {[ "counter" := VInt 6 ]}) ∧
  await_in_sequence (af_call (wrapper_of (await_me tick)) [] ∅)
                    (af_call (wrapper_of (await_me tick)) [] ∅)
                    (counter_world 5 []) =
  ((fn_body tick [] ∅ {[ "counter" := VInt 6 ]}).1,
   World (fn_body tick [] ∅ {[ "counter" := VInt 6 ]}).2
         (trace (counter_world 5 []) ++
          events_of tick [] ∅ ++ events_of tick [] ∅)).
Proof.
  split; [reflexivity |].
  apply (sequential_awaits_run_in_order tick tick [] ∅ [] ∅
           (counter_world 5 []) (VInt 6) {[ "counter" := VInt 6 ]}).
  reflexivity.
Defined.

(** The second of two ticks in sequence sees the first one's update. *)
Example two_ticks_in_sequence :
  (await_in_sequence (af_call (wrapper_of (await_me tick)) [] ∅)
                     (af_call (wrapper_of (await_me tick)) [] ∅)
                     (counter_world 5 [])).1 = Returned (VInt 7).
Proof. reflexivity. Qed.

(** X13.  Two adapted calls awaited one after the other stop at the first
    exception: when the first original raises [e], the sequence raises
    [e], and the second original is neither submitted nor entered. *)
Theorem sequential_awaits_stop_at_exception f g a1 k1 a2 k2 w e h :
  fn_body f a1 k1 (heap w) = (Raised e, h) →
  await_in_sequence (af_call (wrapper_of (await_me f)) a1 k1)
                    (af_call (wrapper_of (await_me g)) a2 k2) w =
  (Raised e, World h (trace w ++ events_of f a1 k1)).
Proof.
  intros Hfirst.
  unfold await_in_sequence, await, mbind, M_bind.
  by rewrite await_me_run, Hfirst.
Qed.

Lemma sequential_awaits_stop_at_exception_witness :
  fn_body reject [] ∅ (heap (counter_world 5 [])) =
    (Raised (Exn "ValueError" "bad input"), heap (counter_world 5 [])) ∧
  await_in_sequence (af_call (wrapper_of (await_me reject)) [] ∅)
                    (af_call (wrapper_of (await_me tick)) [] ∅)
                    (counter_world 5 []) =
  (Raised (Exn "ValueError" "bad input"),
   World (heap (counter_world 5 []))
         (trace (counter_world 5 []) ++ events_of reject [] ∅)).
Proof.
  split; [reflexivity |].
  apply (sequential_awaits_stop_at_exception reject tick [] ∅ [] ∅
           (counter_world 5 []) (Exn "ValueError" "bad input")
           (heap (counter_world 5 []))).
  reflexivity.
Defined.
